(** * Uploading and sharing a model on the Hugging Face Hub

    A shallow embedding of the notebook
    [MLOps_Professional/lab9/sample/Part II - Uploading and Sharing Models on
    Hugging Face Hub with Intel Optimizations.ipynb].

    The notebook is a straight-line script over three libraries
    ([huggingface_hub], [transformers], the Python built-ins).  The libraries
    are not part of the repository: they are an interface here ([Library]),
    and every result about what the script does is stated for every
    implementation of that interface.  The cells are run in order and a cell
    that raises ends the run (Run All). *)

From stdpp Require Import base strings list gmap.

Open Scope string_scope.

(** ** Values, worlds and logs *)

(** [open(path, mode)]: the script only uses ["w"]; ["a"] is kept beside it to
    say what truncation means. *)
Inductive OpenMode := ModeW | ModeA.

(** A text file object, as returned by [open]. *)
Record File := { file_name : string }.

Section Types.

(** The objects of the libraries are opaque to the script: a model, a
    tokenizer and a git working copy are handles, an exception is whatever
    the library raised, and [Remote] stands for all that is not the local
    file system (the hub, the stored credential, the network). *)
Variables (Model Tokenizer Repo Exn Remote : Type).

Inductive Outcome (A : Type) :=
| Returned (a : A)
| Raised (e : Exn).

Record World := {
  fs : gmap string string;     (* local files: path to content *)
  hub : Remote
}.

(** One entry per call that leaves the script, with its arguments and with
    what came back. *)
Inductive Event :=
| E_notebook_login (r : Outcome unit)
| E_model_from_pretrained (path : string) (r : Outcome Model)
| E_tokenizer_from_pretrained (name : string) (r : Outcome Tokenizer)
| E_model_save_pretrained (model : Model) (save_directory : string) (r : Outcome unit)
| E_tokenizer_save_pretrained (tokenizer : Tokenizer) (save_directory : string) (r : Outcome unit)
| E_model_push_to_hub (model : Model) (repo_id : string) (r : Outcome unit)
| E_tokenizer_push_to_hub (tokenizer : Tokenizer) (repo_id : string) (r : Outcome unit)
| E_open (path : string) (mode : OpenMode) (r : Outcome File)
| E_write (file : File) (content : string) (r : Outcome unit)
| E_Repository (local_dir clone_from : string) (r : Outcome Repo)
| E_repo_push_to_hub (repo : Repo) (commit_message : string) (r : Outcome unit).

(** What a run leaves behind: how it ended, the world, and the log. *)
Record Run (A : Type) := {
  outcome : Outcome A;
  world : World;
  trace : list Event
}.

(** The libraries.  A call sees the whole world and may change it, also
    when it raises. *)
Record Library := {
  notebook_login : World -> Outcome unit * World;
  AutoModelForSequenceClassification_from_pretrained :
    string -> World -> Outcome Model * World;
  AutoTokenizer_from_pretrained : string -> World -> Outcome Tokenizer * World;
  model_save_pretrained : Model -> string -> World -> Outcome unit * World;
  tokenizer_save_pretrained : Tokenizer -> string -> World -> Outcome unit * World;
  model_push_to_hub : Model -> string -> World -> Outcome unit * World;
  tokenizer_push_to_hub : Tokenizer -> string -> World -> Outcome unit * World;
  Repository : string -> string -> World -> Outcome Repo * World;
  repo_push_to_hub : Repo -> string -> World -> Outcome unit * World;
  (* the operating system refusing [open]; and failing a [write], with the
     number of characters of the text that had reached the file by then *)
  open_error : string -> OpenMode -> World -> option Exn;
  write_error : File -> string -> World -> option (Exn * nat);
  (* the files [save_pretrained] makes of an artifact: name to content *)
  model_files : Model -> gmap string string;
  tokenizer_files : Tokenizer -> gmap string string
}.

End Types.

Arguments Returned {Exn A} a.
Arguments Raised {Exn A} e.
Arguments fs {Remote} w.
Arguments hub {Remote} w.
Arguments Build_World {Remote} fs hub.
Arguments E_notebook_login {Model Tokenizer Repo Exn} r.
Arguments E_model_from_pretrained {Model Tokenizer Repo Exn} path r.
Arguments E_tokenizer_from_pretrained {Model Tokenizer Repo Exn} name r.
Arguments E_model_save_pretrained {Model Tokenizer Repo Exn} model save_directory r.
Arguments E_tokenizer_save_pretrained {Model Tokenizer Repo Exn} tokenizer save_directory r.
Arguments E_model_push_to_hub {Model Tokenizer Repo Exn} model repo_id r.
Arguments E_tokenizer_push_to_hub {Model Tokenizer Repo Exn} tokenizer repo_id r.
Arguments E_open {Model Tokenizer Repo Exn} path mode r.
Arguments E_write {Model Tokenizer Repo Exn} file content r.
Arguments E_Repository {Model Tokenizer Repo Exn} local_dir clone_from r.
Arguments E_repo_push_to_hub {Model Tokenizer Repo Exn} repo commit_message r.
Arguments Build_Run {Model Tokenizer Repo Exn Remote A} outcome world trace.
Arguments outcome {Model Tokenizer Repo Exn Remote A} r.
Arguments world {Model Tokenizer Repo Exn Remote A} r.
Arguments trace {Model Tokenizer Repo Exn Remote A} r.
Arguments Build_Library {Model Tokenizer Repo Exn Remote}.
Arguments notebook_login {Model Tokenizer Repo Exn Remote} l w.
Arguments AutoModelForSequenceClassification_from_pretrained
  {Model Tokenizer Repo Exn Remote} l path w.
Arguments AutoTokenizer_from_pretrained {Model Tokenizer Repo Exn Remote} l name w.
Arguments model_save_pretrained {Model Tokenizer Repo Exn Remote} l model dir w.
Arguments tokenizer_save_pretrained {Model Tokenizer Repo Exn Remote} l tokenizer dir w.
Arguments model_push_to_hub {Model Tokenizer Repo Exn Remote} l model repo_id w.
Arguments tokenizer_push_to_hub {Model Tokenizer Repo Exn Remote} l tokenizer repo_id w.
Arguments Repository {Model Tokenizer Repo Exn Remote} l local_dir clone_from w.
Arguments repo_push_to_hub {Model Tokenizer Repo Exn Remote} l repo commit_message w.
Arguments open_error {Model Tokenizer Repo Exn Remote} l path mode w.
Arguments write_error {Model Tokenizer Repo Exn Remote} l file content w.
Arguments model_files {Model Tokenizer Repo Exn Remote} l model.
Arguments tokenizer_files {Model Tokenizer Repo Exn Remote} l tokenizer.

(** ** The template of the model card (code cell 4 of the notebook) *)

Definition newline : string := String (Ascii.ascii_of_nat 10) EmptyString.

(** The triple-quoted literal, line by line: it opens with a line break and
    ends with an empty line. *)
Definition model_card_lines : list string :=
  [ "";
    "# Model Card for My Fine-Tuned Model";
    "";
    "## Model Description";
    "- **Purpose**: [Describe the purpose of your model. What task does it perform?]";
    "- **Model architecture**: [Specify the architecture, e.g., BERT, GPT-2, etc.]";
    "- **Training data**: [Briefly describe the dataset used for training. Include any data cleaning or preprocessing steps.]";
    "";
    "## Intended Use";
    "- **Intended users**: [Who are the intended users of the model?]";
    "- **Use cases**: [Describe potential use cases for the model.]";
    "";
    "## Limitations";
    "- **Known limitations**: [Mention any known limitations of the model.]";
    "";
    "## Hardware ";
    "- **Training Platform**: [Describe details about the systems and platform used to train the model.]";
    "";
    "## Software Optimizations";
    "- **Known Optimizations**: [Describe details about any optimizations used during training.]";
    "";
    "## Ethical Considerations";
    "- **Ethical concerns**: [Discuss any ethical concerns related to the use of your model.]";
    "";
    "## More Information";
    "- [Include any additional information, links, or references.]";
    "";
    "" ].

Definition model_card_content : string := String.concat newline model_card_lines.

(** Reading a markdown text back: its lines, and the titles of its
    second-level sections (the text after ["## "], as it stands). *)
Fixpoint lines_from (acc : string) (s : string) : list string :=
  match s with
  | EmptyString => [String.rev acc]
  | String c s' =>
      if Ascii.eqb c (Ascii.ascii_of_nat 10)
      then String.rev acc :: lines_from "" s'
      else lines_from (String c acc) s'
  end.

Definition lines (s : string) : list string := lines_from "" s.

Definition header_of (line : string) : option string :=
  if String.prefix "## " line
  then Some (String.substring 3 (String.length line - 3) line)
  else None.

Definition section_headers (s : string) : list string :=
  omap header_of (lines s).

(** ** Running the script *)

Definition path_join (dir name : string) : string := dir +:+ "/" +:+ name.

Section Script.

Context {Model Tokenizer Repo Exn Remote : Type}.

Local Abbreviation World := (World Remote).
Local Abbreviation Event := (Event Model Tokenizer Repo Exn).
Local Abbreviation Library := (Library Model Tokenizer Repo Exn Remote).
Local Abbreviation Outcome := (Outcome Exn).
Local Abbreviation Run := (Run Model Tokenizer Repo Exn Remote).

(** A piece of script: from the world it starts in to what it leaves. *)
Definition M (A : Type) : Type := World -> Run A.

Definition ret {A} (a : A) : M A :=
  fun w => {| outcome := Returned a; world := w; trace := [] |}.

(** Sequencing.  There is no handler anywhere in the notebook: an exception
    ends the piece of script it occurs in and whatever follows it. *)
Definition bind {A B} (m : M A) (k : A -> M B) : M B :=
  fun w =>
    let r := m w in
    match outcome r with
    | Returned a =>
        let r' := k a (world r) in
        {| outcome := outcome r'; world := world r'; trace := trace r ++ trace r' |}
    | Raised e =>
        {| outcome := Raised e; world := world r; trace := trace r |}
    end.

(** A call that leaves the script, logged with what it returns. *)
Definition call {A} (ev : Outcome A -> Event) (op : World -> Outcome A * World) : M A :=
  fun w =>
    let r := op w in
    {| outcome := r.1; world := r.2; trace := [ev r.1] |}.

(** A run with one more entry at the head of its log. *)
Definition logged {A} (ev : Event) (r : Run A) : Run A :=
  {| outcome := outcome r; world := world r; trace := ev :: trace r |}.

Notation "x <- m ;; k" := (bind m (fun x => k))
  (at level 100, m at next level, right associativity).
Notation "m ;;; k" := (bind m (fun _ => k))
  (at level 100, right associativity).

Variable lib : Library.

(** *** The built-ins *)

Definition set_fs (f : gmap string string) (w : World) : World :=
  {| fs := f; hub := hub w |}.

(** [open(path, mode)]: mode ["w"] creates the file or empties it, mode
    ["a"] creates it or leaves it as it is. *)
Definition os_open (path : string) (mode : OpenMode) (w : World) : Outcome File * World :=
  match open_error lib path mode w with
  | Some e => (Raised e, w)
  | None =>
      (Returned {| file_name := path |},
       match mode with
       | ModeW => set_fs (<[path := ""]> (fs w)) w
       | ModeA => set_fs (<[path := default "" (fs w !! path)]> (fs w)) w
       end)
  end.

(** [file.write(content)], with the flush that leaving the [with] block
    forces: the text goes to the end of the file, which is where both modes
    leave the position.  When it fails, the characters that had reached the
    file by then stay in it. *)
Definition os_write (file : File) (content : string) (w : World) : Outcome unit * World :=
  match write_error lib file content w with
  | Some (e, n) =>
      (Raised e,
       set_fs (<[file_name file :=
                   default "" (fs w !! file_name file) +:+ String.substring 0 n content]>
                 (fs w)) w)
  | None =>
      (Returned tt,
       set_fs (<[file_name file := default "" (fs w !! file_name file) +:+ content]> (fs w)) w)
  end.

Definition py_open (path : string) (mode : OpenMode) : M File :=
  call (E_open path mode) (os_open path mode).

Definition file_write (file : File) (content : string) : M unit :=
  call (E_write file content) (os_write file content).

(** [with open(path, mode) as file: body].  Leaving the block closes the
    file, also when the body raised, and lets the exception through;
    closing changes no content here. *)
Definition with_open {A} (path : string) (mode : OpenMode) (body : File -> M A) : M A :=
  file <- py_open path mode ;;
  body file.

(** *** The code cells, in the order of the notebook *)

(** Cell 1: [notebook_login()]. *)
Definition cell_login : M unit :=
  call E_notebook_login (notebook_login lib).

(** Cell 2: the model comes from the checkpoint, the tokenizer from the
    base DistilBERT identifier. *)
Definition cell_load (checkpoint_path : string) : M (Model * Tokenizer) :=
  model <- call (E_model_from_pretrained checkpoint_path)
             (AutoModelForSequenceClassification_from_pretrained lib checkpoint_path) ;;
  tokenizer <- call (E_tokenizer_from_pretrained "distilbert-base-uncased")
                 (AutoTokenizer_from_pretrained lib "distilbert-base-uncased") ;;
  ret (model, tokenizer).

(** Cell 3: save both under [model_name_on_hub], then push both. *)
Definition cell_save_and_push (model : Model) (tokenizer : Tokenizer)
    (model_name_on_hub : string) : M unit :=
  call (E_model_save_pretrained model model_name_on_hub)
    (model_save_pretrained lib model model_name_on_hub) ;;;
  call (E_tokenizer_save_pretrained tokenizer model_name_on_hub)
    (tokenizer_save_pretrained lib tokenizer model_name_on_hub) ;;;
  call (E_model_push_to_hub model model_name_on_hub)
    (model_push_to_hub lib model model_name_on_hub) ;;;
  call (E_tokenizer_push_to_hub tokenizer model_name_on_hub)
    (tokenizer_push_to_hub lib tokenizer model_name_on_hub).

(** Cell 5, first half: the card goes to [<model_name_on_hub>/README.md]. *)
Definition model_card_filename (model_name_on_hub : string) : string :=
  model_name_on_hub +:+ "/README.md".

Definition cell_write_card (model_name_on_hub : string) : M unit :=
  with_open (model_card_filename model_name_on_hub) ModeW
    (fun file => file_write file model_card_content).

(** Cell 5, second half: a working copy of the hub repository over the
    same directory, and one push of it. *)
Definition cell_push_card (model_name_on_hub : string) : M unit :=
  repo <- call (E_Repository model_name_on_hub model_name_on_hub)
            (Repository lib model_name_on_hub model_name_on_hub) ;;
  call (E_repo_push_to_hub repo "Add model card")
    (repo_push_to_hub lib repo "Add model card").

(** The whole notebook, for a checkpoint folder and a name on the hub: the
    two literals of the notebook that its reader is to replace by their own. *)
Definition run_notebook (checkpoint_path model_name_on_hub : string) : M unit :=
  cell_login ;;;
  mt <- cell_load checkpoint_path ;;
  cell_save_and_push mt.1 mt.2 model_name_on_hub ;;;
  cell_write_card model_name_on_hub ;;;
  cell_push_card model_name_on_hub.

(** The notebook as it is in the repository. *)
Definition checkpoint_path : string := "./results/checkpoint-2000".
Definition model_name_on_hub : string := "desired-model-name".

Definition notebook : M unit := run_notebook checkpoint_path model_name_on_hub.

End Script.

Arguments M {Model Tokenizer Repo Exn Remote} A.

(** ** A log against the libraries *)

Section Replay.

Context {Model Tokenizer Repo Exn Remote : Type}.

Local Abbreviation World := (World Remote).
Local Abbreviation Event := (Event Model Tokenizer Repo Exn).

Variable lib : Library Model Tokenizer Repo Exn Remote.

(** The call of a log entry, made in the world [w]: the entry with what the
    library or the operating system answers there, and the world the call
    leaves. *)
Definition made (ev : Event) (w : World) : Event * World :=
  match ev with
  | E_notebook_login _ =>
      let r := notebook_login lib w in (E_notebook_login r.1, r.2)
  | E_model_from_pretrained path _ =>
      let r := AutoModelForSequenceClassification_from_pretrained lib path w in
      (E_model_from_pretrained path r.1, r.2)
  | E_tokenizer_from_pretrained name _ =>
      let r := AutoTokenizer_from_pretrained lib name w in
      (E_tokenizer_from_pretrained name r.1, r.2)
  | E_model_save_pretrained m dir _ =>
      let r := model_save_pretrained lib m dir w in
      (E_model_save_pretrained m dir r.1, r.2)
  | E_tokenizer_save_pretrained t dir _ =>
      let r := tokenizer_save_pretrained lib t dir w in
      (E_tokenizer_save_pretrained t dir r.1, r.2)
  | E_model_push_to_hub m repo_id _ =>
      let r := model_push_to_hub lib m repo_id w in
      (E_model_push_to_hub m repo_id r.1, r.2)
  | E_tokenizer_push_to_hub t repo_id _ =>
      let r := tokenizer_push_to_hub lib t repo_id w in
      (E_tokenizer_push_to_hub t repo_id r.1, r.2)
  | E_open path mode _ =>
      let r := os_open lib path mode w in (E_open path mode r.1, r.2)
  | E_write file content _ =>
      let r := os_write lib file content w in (E_write file content r.1, r.2)
  | E_Repository local_dir clone_from _ =>
      let r := Repository lib local_dir clone_from w in
      (E_Repository local_dir clone_from r.1, r.2)
  | E_repo_push_to_hub repo msg _ =>
      let r := repo_push_to_hub lib repo msg w in
      (E_repo_push_to_hub repo msg r.1, r.2)
  end.

(** [genuine w tr w']: the log [tr] is the record of calls that were made,
    one after the other from the world [w] on, each in the world the call
    before it left, with the answers they got; and [w'] is the world the
    last of them left. *)
Fixpoint genuine (w : World) (tr : list Event) (w' : World) : Prop :=
  match tr with
  | [] => w' = w
  | ev :: tr => (made ev w).1 = ev /\ genuine (made ev w).2 tr w'
  end.

End Replay.

(** ** Reading a log *)

Section Logs.

Context {Model Tokenizer Repo Exn : Type}.

Local Abbreviation Event := (Event Model Tokenizer Repo Exn).

(** The place of a call in the notebook, counting the calls from 0. *)
Definition step_of (ev : Event) : nat :=
  match ev with
  | E_notebook_login _ => 0
  | E_model_from_pretrained _ _ => 1
  | E_tokenizer_from_pretrained _ _ => 2
  | E_model_save_pretrained _ _ _ => 3
  | E_tokenizer_save_pretrained _ _ _ => 4
  | E_model_push_to_hub _ _ _ => 5
  | E_tokenizer_push_to_hub _ _ _ => 6
  | E_open _ _ _ => 7
  | E_write _ _ _ => 8
  | E_Repository _ _ _ => 9
  | E_repo_push_to_hub _ _ _ => 10
  end.

Definition exception_of {A} (r : Outcome Exn A) : option Exn :=
  match r with
  | Returned _ => None
  | Raised e => Some e
  end.

(** The exception a logged call ended with, if it raised. *)
Definition raised_by (ev : Event) : option Exn :=
  match ev with
  | E_notebook_login r => exception_of r
  | E_model_from_pretrained _ r => exception_of r
  | E_tokenizer_from_pretrained _ r => exception_of r
  | E_model_save_pretrained _ _ r => exception_of r
  | E_tokenizer_save_pretrained _ _ r => exception_of r
  | E_model_push_to_hub _ _ r => exception_of r
  | E_tokenizer_push_to_hub _ _ r => exception_of r
  | E_open _ _ r => exception_of r
  | E_write _ _ r => exception_of r
  | E_Repository _ _ r => exception_of r
  | E_repo_push_to_hub _ _ r => exception_of r
  end.

(** The three [push_to_hub] calls. *)
Definition is_upload (ev : Event) : bool :=
  match ev with
  | E_model_push_to_hub _ _ _ | E_tokenizer_push_to_hub _ _ _
  | E_repo_push_to_hub _ _ _ => true
  | _ => false
  end.


(** The calls that write into the local directory. *)
Definition is_save (ev : Event) : bool :=
  match ev with
  | E_model_save_pretrained _ _ _ | E_tokenizer_save_pretrained _ _ _
  | E_open _ _ _ | E_write _ _ _ => true
  | _ => false
  end.

(** The calls that are handed a model, and the model they are handed. *)
Definition model_given (ev : Event) : option Model :=
  match ev with
  | E_model_save_pretrained m _ _ | E_model_push_to_hub m _ _ => Some m
  | _ => None
  end.

(** The log of a run, cell by cell, as long as no call raises. *)
Definition log_login : list Event :=
  [ E_notebook_login (Returned tt) ].

Definition log_loaded (path : string) (m : Model) (t : Tokenizer) : list Event :=
  log_login ++
  [ E_model_from_pretrained path (Returned m);
    E_tokenizer_from_pretrained "distilbert-base-uncased" (Returned t) ].

Definition log_saved (path name : string) (m : Model) (t : Tokenizer) : list Event :=
  log_loaded path m t ++
  [ E_model_save_pretrained m name (Returned tt);
    E_tokenizer_save_pretrained t name (Returned tt) ].

Definition log_pushed (path name : string) (m : Model) (t : Tokenizer) : list Event :=
  log_saved path name m t ++
  [ E_model_push_to_hub m name (Returned tt);
    E_tokenizer_push_to_hub t name (Returned tt) ].

Definition card_file (name : string) : File :=
  {| file_name := name +:+ "/README.md" |}.

Definition log_written (path name : string) (m : Model) (t : Tokenizer) : list Event :=
  log_pushed path name m t ++
  [ E_open (name +:+ "/README.md") ModeW (Returned (card_file name));
    E_write (card_file name) model_card_content (Returned tt) ].

(** The log of a run in which no call raised. *)
Definition full_trace (path name : string) (m : Model) (t : Tokenizer) (repo : Repo)
    : list Event :=
  log_written path name m t ++
  [ E_Repository name name (Returned repo);
    E_repo_push_to_hub repo "Add model card" (Returned tt) ].

(** The uploads of a log are one of the model, then one of the tokenizer,
    then one of the working copy that holds the card. *)
Definition uploads_once_each (tr : list Event) : Prop :=
  exists m t repo name1 name2 msg r1 r2 r3,
    List.filter is_upload tr =
      [ E_model_push_to_hub m name1 r1;
        E_tokenizer_push_to_hub t name2 r2;
        E_repo_push_to_hub repo msg r3 ].

End Logs.

(** The section titles as the specification lists them. *)
Definition listed_section_headers : list string :=
  [ "Description"; "Intended Use"; "Limitations"; "Hardware";
    "Software Optimizations"; "Ethical Considerations"; "More Information" ].

(** ** What the script relies on in the libraries *)

(** A path exists when it is a file or when a file lies under it. *)
Definition path_exists (path : string) (files : gmap string string) : bool :=
  existsb (fun q => String.eqb q path || String.prefix (path +:+ "/") q)
    ((map_to_list files).*1).

Section Laws.

Context {Model Tokenizer Repo Exn Remote : Type}.

Variable lib : Library Model Tokenizer Repo Exn Remote.

(** Modelled from the spec: [from_pretrained] of [transformers], which is not
    in the repository.  "Failure: external library raises on missing/corrupt
    checkpoint" (4.2). *)
Definition raises_on_missing_checkpoint : Prop :=
  forall path w,
    path_exists path (fs w) = false ->
    exists e, (AutoModelForSequenceClassification_from_pretrained lib path w).1 = Raised e.

(** Modelled from the spec: [save_pretrained], [push_to_hub] and [Repository]
    of [transformers] and [huggingface_hub], which are not in the repository.
    Saving "writes both artifacts to a local directory of that name" (4.3),
    a directory "containing serialized model files, tokenizer files, and a
    README.md" (6), so the three are files of their own; uploading and
    opening the working copy leave the files of the directory as they are. *)
Class KeepsLocalFiles : Prop := {
  save_model_writes : forall m dir w f c,
    (model_save_pretrained lib m dir w).1 = Returned tt ->
    model_files lib m !! f = Some c ->
    fs (model_save_pretrained lib m dir w).2 !! path_join dir f = Some c;
  save_tokenizer_writes : forall t dir w f c,
    (tokenizer_save_pretrained lib t dir w).1 = Returned tt ->
    tokenizer_files lib t !! f = Some c ->
    fs (tokenizer_save_pretrained lib t dir w).2 !! path_join dir f = Some c;
  save_tokenizer_keeps : forall t dir w p c,
    (tokenizer_save_pretrained lib t dir w).1 = Returned tt ->
    (forall f, is_Some (tokenizer_files lib t !! f) -> p <> path_join dir f) ->
    fs w !! p = Some c ->
    fs (tokenizer_save_pretrained lib t dir w).2 !! p = Some c;
  push_model_keeps : forall m name w,
    (model_push_to_hub lib m name w).1 = Returned tt ->
    fs w ⊆ fs (model_push_to_hub lib m name w).2;
  push_tokenizer_keeps : forall t name w,
    (tokenizer_push_to_hub lib t name w).1 = Returned tt ->
    fs w ⊆ fs (tokenizer_push_to_hub lib t name w).2;
  Repository_keeps : forall dir from w repo,
    (Repository lib dir from w).1 = Returned repo ->
    fs w ⊆ fs (Repository lib dir from w).2;
  push_repo_keeps : forall repo msg w,
    (repo_push_to_hub lib repo msg w).1 = Returned tt ->
    fs w ⊆ fs (repo_push_to_hub lib repo msg w).2;
  files_apart : forall m t f,
    is_Some (model_files lib m !! f) -> tokenizer_files lib t !! f = None;
  model_files_not_card : forall m, model_files lib m !! "README.md" = None;
  tokenizer_files_not_card : forall t, tokenizer_files lib t !! "README.md" = None
}.

End Laws.

(** ** The shape of a log

    [Stops path name out tr]: a run for [path] and [name] that ended with
    [out] has the log [tr].  One rule per call that may raise, and one for
    the run in which none does. *)

Section Shape.

Context {Model Tokenizer Repo Exn : Type}.

Local Abbreviation Event := (Event Model Tokenizer Repo Exn).

Variables (path name : string).

Inductive Stops : Outcome Exn unit -> list Event -> Prop :=
| stops_at_login e :
    Stops (Raised e) [E_notebook_login (Raised e)]
| stops_at_model_load e :
    Stops (Raised e)
      (log_login ++ [E_model_from_pretrained path (Raised e)])
| stops_at_tokenizer_load m e :
    Stops (Raised e)
      (log_login ++
       [E_model_from_pretrained path (Returned m);
        E_tokenizer_from_pretrained "distilbert-base-uncased" (Raised e)])
| stops_at_model_save m t e :
    Stops (Raised e)
      (log_loaded path m t ++ [E_model_save_pretrained m name (Raised e)])
| stops_at_tokenizer_save m t e :
    Stops (Raised e)
      (log_loaded path m t ++
       [E_model_save_pretrained m name (Returned tt);
        E_tokenizer_save_pretrained t name (Raised e)])
| stops_at_model_push m t e :
    Stops (Raised e)
      (log_saved path name m t ++ [E_model_push_to_hub m name (Raised e)])
| stops_at_tokenizer_push m t e :
    Stops (Raised e)
      (log_saved path name m t ++
       [E_model_push_to_hub m name (Returned tt);
        E_tokenizer_push_to_hub t name (Raised e)])
| stops_at_open m t e :
    Stops (Raised e)
      (log_pushed path name m t ++
       [E_open (name +:+ "/README.md") ModeW (Raised e)])
| stops_at_write m t e :
    Stops (Raised e)
      (log_pushed path name m t ++
       [E_open (name +:+ "/README.md") ModeW (Returned (card_file name));
        E_write (card_file name) model_card_content (Raised e)])
| stops_at_Repository m t e :
    Stops (Raised e)
      (log_written path name m t ++ [E_Repository name name (Raised e)])
| stops_at_repo_push m t repo e :
    Stops (Raised e)
      (log_written path name m t ++
       [E_Repository name name (Returned repo);
        E_repo_push_to_hub repo "Add model card" (Raised e)])
| stops_nowhere m t repo :
    Stops (Returned tt) (full_trace path name m t repo).

End Shape.

(** ** A library to run the script against

    The smallest implementation of the interface: handles and exceptions are
    strings, the hub is the list of what was uploaded, newest first. *)

Module Stub.

Definition uploaded (what : string) (w : World (list string)) : World (list string) :=
  {| fs := fs w; hub := what :: hub w |}.

Definition from_pretrained (path : string) (w : World (list string))
    : Outcome string string * World (list string) :=
  if path_exists path (fs w)
  then (Returned ("model of " +:+ path), w)
  else (Raised "OSError", w).

Definition save_model (m dir : string) (w : World (list string))
    : Outcome string unit * World (list string) :=
  (Returned tt,
   set_fs (<[path_join dir "config.json" := "{}"]>
             (<[path_join dir "model.safetensors" := m]> (fs w))) w).

Definition save_tokenizer (t dir : string) (w : World (list string))
    : Outcome string unit * World (list string) :=
  (Returned tt,
   set_fs (<[path_join dir "vocab.txt" := "[PAD]"]>
             (<[path_join dir "tokenizer.json" := t]> (fs w))) w).

Definition library : Library string string string string (list string) := {|
  notebook_login w := (Returned tt, w);
  AutoModelForSequenceClassification_from_pretrained := from_pretrained;
  AutoTokenizer_from_pretrained name w := (Returned ("tokenizer of " +:+ name), w);
  model_save_pretrained := save_model;
  tokenizer_save_pretrained := save_tokenizer;
  model_push_to_hub m name w := (Returned tt, uploaded ("model to " +:+ name) w);
  tokenizer_push_to_hub t name w := (Returned tt, uploaded ("tokenizer to " +:+ name) w);
  Repository dir from w := (Returned dir, w);
  repo_push_to_hub repo msg w := (Returned tt, uploaded ("commit: " +:+ msg) w);
  open_error path mode w := None;
  write_error file content w := None;
  model_files m := {[ "model.safetensors" := m; "config.json" := "{}" ]};
  tokenizer_files t := {[ "tokenizer.json" := t; "vocab.txt" := "[PAD]" ]}
|}.

(** A machine with the trained checkpoint on disk and an older card in the
    directory of the model, and a machine with nothing on disk. *)
Definition trained : World (list string) :=
  {| fs := {[ "./results/checkpoint-2000/model.safetensors" := "weights";
              "desired-model-name/README.md" := "an older card" ]};
     hub := [] |}.

Definition blank : World (list string) :=
  {| fs := ∅; hub := [] |}.

End Stub.

(** ** Files that the libraries leave alone *)

Section Frame.

Context {Model Tokenizer Repo Exn Remote : Type}.

Variable lib : Library Model Tokenizer Repo Exn Remote.

(** [Untouched name p]: no call of the libraries, as the notebook for [name]
    makes them, creates, changes or removes the file [p], whether it returns
    or raises. *)
Class Untouched (name p : string) : Prop := {
  login_leaves : forall w, fs (notebook_login lib w).2 !! p = fs w !! p;
  model_load_leaves : forall path w,
    fs (AutoModelForSequenceClassification_from_pretrained lib path w).2 !! p = fs w !! p;
  tokenizer_load_leaves : forall id w,
    fs (AutoTokenizer_from_pretrained lib id w).2 !! p = fs w !! p;
  model_save_leaves : forall m w,
    fs (model_save_pretrained lib m name w).2 !! p = fs w !! p;
  tokenizer_save_leaves : forall t w,
    fs (tokenizer_save_pretrained lib t name w).2 !! p = fs w !! p;
  model_push_leaves : forall m w,
    fs (model_push_to_hub lib m name w).2 !! p = fs w !! p;
  tokenizer_push_leaves : forall t w,
    fs (tokenizer_push_to_hub lib t name w).2 !! p = fs w !! p;
  Repository_leaves : forall w,
    fs (Repository lib name name w).2 !! p = fs w !! p;
  repo_push_leaves : forall repo msg w,
    fs (repo_push_to_hub lib repo msg w).2 !! p = fs w !! p
}.

End Frame.

(** ** The stub on a machine that refuses to write *)

Module Faulty.

Definition with_os_errors
    (open_err : string -> OpenMode -> World (list string) -> option string)
    (write_err : File -> string -> World (list string) -> option (string * nat))
    : Library string string string string (list string) := {|
  notebook_login := notebook_login Stub.library;
  AutoModelForSequenceClassification_from_pretrained :=
    AutoModelForSequenceClassification_from_pretrained Stub.library;
  AutoTokenizer_from_pretrained := AutoTokenizer_from_pretrained Stub.library;
  model_save_pretrained := model_save_pretrained Stub.library;
  tokenizer_save_pretrained := tokenizer_save_pretrained Stub.library;
  model_push_to_hub := model_push_to_hub Stub.library;
  tokenizer_push_to_hub := tokenizer_push_to_hub Stub.library;
  Repository := Repository Stub.library;
  repo_push_to_hub := repo_push_to_hub Stub.library;
  open_error := open_err;
  write_error := write_err;
  model_files := model_files Stub.library;
  tokenizer_files := tokenizer_files Stub.library
|}.

(** A disk with room for a hundred characters: files open, and a write
    stops after that many. *)
Definition disk_full : Library string string string string (list string) :=
  with_os_errors (fun _ _ _ => None) (fun _ _ _ => Some ("OSError", 100)).

(** A directory without the right to write: nothing opens. *)
Definition read_only : Library string string string string (list string) :=
  with_os_errors (fun _ _ _ => Some "PermissionError") (fun _ _ _ => None).

(** An account that is not let in: the login raises. *)
Definition logged_out : Library string string string string (list string) := {|
  notebook_login w := (Raised "LoginError", w);
  AutoModelForSequenceClassification_from_pretrained :=
    AutoModelForSequenceClassification_from_pretrained Stub.library;
  AutoTokenizer_from_pretrained := AutoTokenizer_from_pretrained Stub.library;
  model_save_pretrained := model_save_pretrained Stub.library;
  tokenizer_save_pretrained := tokenizer_save_pretrained Stub.library;
  model_push_to_hub := model_push_to_hub Stub.library;
  tokenizer_push_to_hub := tokenizer_push_to_hub Stub.library;
  Repository := Repository Stub.library;
  repo_push_to_hub := repo_push_to_hub Stub.library;
  open_error := open_error Stub.library;
  write_error := write_error Stub.library;
  model_files := model_files Stub.library;
  tokenizer_files := tokenizer_files Stub.library
|}.

End Faulty.

(** * Results *)

(** ** Paths *)

Lemma path_join_inj dir f1 f2 : path_join dir f1 = path_join dir f2 -> f1 = f2.
Proof.
  unfold path_join. intros H.
  apply (inj (String.app dir)) in H.
  by apply (inj (String.app "/")) in H.
Qed.

Lemma model_card_filename_join name : name +:+ "/README.md" = path_join name "README.md".
Proof. reflexivity. Qed.

(** ** Every run has one of twelve logs *)

(** ** Logs of the twelve shapes *)

Ltac unfold_logs :=
  unfold full_trace, log_written, log_pushed, log_saved, log_loaded, log_login in *;
  cbn [app] in *.

Ltac by_shape H := destruct H; unfold_logs.

(** Go through the entries of a log one index at a time. *)
Ltac at_index i :=
  repeat (destruct i as [|i]; cbn [lookup list_lookup] in *; simplify_eq).

(** Go through the entries of a log one member at a time. *)
Ltac at_member H :=
  repeat (apply elem_of_cons in H as [H|H]; simplify_eq);
  try (by apply elem_of_nil in H).

Section LogFacts.

Context {Model Tokenizer Repo Exn : Type}.

Local Abbreviation Event := (Event Model Tokenizer Repo Exn).

Implicit Types (tr : list Event) (out : Outcome Exn unit).

Lemma stops_returned path name out tr :
  Stops path name out tr ->
  out = Returned tt ->
  exists m t repo, tr = full_trace path name m t repo.
Proof. destruct 1; intros ?; simplify_eq. eauto. Qed.

Lemma stops_steps path name out tr :
  Stops path name out tr -> step_of <$> tr = seq 0 (length tr).
Proof. intros H. by by_shape H. Qed.

Lemma stops_raised_last path name out tr i ev e :
  Stops path name out tr ->
  tr !! i = Some ev -> raised_by ev = Some e ->
  S i = length tr /\ out = Raised e.
Proof.
  intros H Hi He. by_shape H; at_index i; cbn in He; simplify_eq; done.
Qed.

Lemma stops_raised_by_call path name out tr e :
  Stops path name out tr ->
  out = Raised e ->
  exists ev, last tr = Some ev /\ raised_by ev = Some e.
Proof.
  intros H He. by_shape H; simplify_eq; eexists; split; reflexivity.
Qed.

Lemma stops_arguments path name out tr :
  Stops path name out tr ->
  (forall p r, E_model_from_pretrained p r ∈ tr -> p = path) /\
  (forall id r, E_tokenizer_from_pretrained id r ∈ tr -> id = "distilbert-base-uncased") /\
  (forall m d r, E_model_save_pretrained m d r ∈ tr -> d = name) /\
  (forall t d r, E_tokenizer_save_pretrained t d r ∈ tr -> d = name) /\
  (forall m d r, E_model_push_to_hub m d r ∈ tr -> d = name) /\
  (forall t d r, E_tokenizer_push_to_hub t d r ∈ tr -> d = name).
Proof.
  intros H. by_shape H; repeat split_and; intros *; intros Hin; by at_member Hin.
Qed.

Lemma stops_model_from_load path name out tr i ev m :
  Stops path name out tr ->
  tr !! i = Some ev -> model_given ev = Some m ->
  tr !! 1 = Some (E_model_from_pretrained path (Returned m)) /\ 1 < i.
Proof.
  intros H Hi Hm. by_shape H; at_index i; cbn in Hm; simplify_eq; split; (reflexivity || lia).
Qed.

Lemma stops_one_load path name out tr p1 p2 r1 r2 :
  Stops path name out tr ->
  E_model_from_pretrained p1 r1 ∈ tr -> E_model_from_pretrained p2 r2 ∈ tr ->
  p1 = p2 /\ r1 = r2.
Proof.
  intros H H1 H2. by_shape H; at_member H1; by at_member H2.
Qed.

Lemma stops_uploads path name out tr :
  Stops path name out tr ->
  (step_of <$> List.filter is_upload tr) `prefix_of` [5; 6; 10].
Proof.
  intros H. by_shape H; cbn; eexists; reflexivity.
Qed.

Lemma stops_upload_after_save path name out tr i :
  Stops path name out tr ->
  (forall m d r, tr !! i = Some (E_model_push_to_hub m d r) ->
     tr !! 3 = Some (E_model_save_pretrained m d (Returned tt)) /\ 3 < i) /\
  (forall t d r, tr !! i = Some (E_tokenizer_push_to_hub t d r) ->
     tr !! 4 = Some (E_tokenizer_save_pretrained t d (Returned tt)) /\ 4 < i) /\
  (forall repo msg r, tr !! i = Some (E_repo_push_to_hub repo msg r) ->
     tr !! 8 = Some (E_write (card_file name) model_card_content (Returned tt)) /\ 8 < i).
Proof.
  intros H. by_shape H; repeat split_and; intros ??? Hi; at_index i;
    split; (reflexivity || lia).
Qed.



Lemma stops_writes path name out tr :
  Stops path name out tr ->
  (forall p mode r, E_open p mode r ∈ tr -> p = name +:+ "/README.md" /\ mode = ModeW) /\
  (forall f c r, E_write f c r ∈ tr -> f = card_file name /\ c = model_card_content).
Proof.
  intros H. by_shape H; split; intros ??? Hin; by at_member Hin.
Qed.

(** A call that returned is followed by the next call of the notebook. *)
Lemma stops_progress path name out tr :
  Stops path name out tr ->
  (forall res, E_notebook_login res ∈ tr -> res = Returned tt ->
     exists res', E_model_from_pretrained path res' ∈ tr) /\
  (forall m, E_model_from_pretrained path (Returned m) ∈ tr ->
     exists res', E_tokenizer_from_pretrained "distilbert-base-uncased" res' ∈ tr) /\
  (forall t, E_tokenizer_from_pretrained "distilbert-base-uncased" (Returned t) ∈ tr ->
     exists m res',
       E_model_from_pretrained path (Returned m) ∈ tr /\
       E_model_save_pretrained m name res' ∈ tr) /\
  (forall m, E_model_save_pretrained m name (Returned tt) ∈ tr ->
     exists t res',
       E_tokenizer_from_pretrained "distilbert-base-uncased" (Returned t) ∈ tr /\
       E_tokenizer_save_pretrained t name res' ∈ tr) /\
  (forall t, E_tokenizer_save_pretrained t name (Returned tt) ∈ tr ->
     exists m res',
       E_model_save_pretrained m name (Returned tt) ∈ tr /\
       E_model_push_to_hub m name res' ∈ tr) /\
  (forall m, E_model_push_to_hub m name (Returned tt) ∈ tr ->
     exists t res',
       E_tokenizer_save_pretrained t name (Returned tt) ∈ tr /\
       E_tokenizer_push_to_hub t name res' ∈ tr).
Proof.
  intros H. by_shape H; repeat split_and; intros *; intros Hin; try intros ->;
    at_member Hin;
    repeat eexists; eauto 20 using list_elem_of_here, list_elem_of_further.
Qed.


End LogFacts.

(** ** Sequencing, one call at a time *)

Section Sequencing.

Context {Model Tokenizer Repo Exn Remote : Type}.

Local Abbreviation Event := (Event Model Tokenizer Repo Exn).
Local Abbreviation M := (@M Model Tokenizer Repo Exn Remote).

Lemma bind_assoc {A B C} (m : M A) (k1 : A -> M B) (k2 : B -> M C) w :
  bind (bind m k1) k2 w = bind m (fun a => bind (k1 a) k2) w.
Proof.
  unfold bind. destruct (outcome (m w)); cbn; [|done].
  destruct (outcome (k1 a (world (m w)))); cbn; [|done].
  by rewrite app_assoc.
Qed.

Lemma bind_ret {A B} (a : A) (k : A -> M B) w : bind (ret a) k w = k a w.
Proof. unfold bind, ret. cbn. by destruct (k a w). Qed.

Lemma bind_call {A B} (ev : Outcome Exn A -> Event) op (k : A -> M B) w :
  bind (call ev op) k w =
    match (op w).1 with
    | Returned a => logged (ev (Returned a)) (k a (op w).2)
    | Raised e => {| outcome := Raised e; world := (op w).2; trace := [ev (Raised e)] |}
    end.
Proof. unfold bind, call. cbn. by destruct (op w) as [[a|e] w']. Qed.

End Sequencing.

(** ** Running the notebook one call at a time *)

Ltac unfold_script :=
  unfold notebook, run_notebook, cell_login, cell_load, cell_save_and_push,
    cell_write_card, cell_push_card, with_open, py_open, file_write,
    model_card_filename.

Ltac simpl_run :=
  cbn [logged outcome world trace fst snd fs hub set_fs file_name] in *.

(** Take the next call of the library apart: it returned, or it raised. *)
Ltac split_call lib :=
  match goal with
  | |- context [notebook_login lib ?x] =>
      destruct (notebook_login lib x) as [[[]|?e] ?w] eqn:?
  | |- context [AutoModelForSequenceClassification_from_pretrained lib ?p ?x] =>
      destruct (AutoModelForSequenceClassification_from_pretrained lib p x)
        as [[?m|?e] ?w] eqn:?
  | |- context [AutoTokenizer_from_pretrained lib ?p ?x] =>
      destruct (AutoTokenizer_from_pretrained lib p x) as [[?t|?e] ?w] eqn:?
  | |- context [model_save_pretrained lib ?a ?d ?x] =>
      destruct (model_save_pretrained lib a d x) as [[[]|?e] ?w] eqn:?
  | |- context [tokenizer_save_pretrained lib ?a ?d ?x] =>
      destruct (tokenizer_save_pretrained lib a d x) as [[[]|?e] ?w] eqn:?
  | |- context [model_push_to_hub lib ?a ?d ?x] =>
      destruct (model_push_to_hub lib a d x) as [[[]|?e] ?w] eqn:?
  | |- context [tokenizer_push_to_hub lib ?a ?d ?x] =>
      destruct (tokenizer_push_to_hub lib a d x) as [[[]|?e] ?w] eqn:?
  | |- context [os_open lib ?p ?a ?x] =>
      unfold os_open; destruct (open_error lib p a x) as [?e|] eqn:?
  | |- context [os_write lib ?f ?c ?x] =>
      unfold os_write; destruct (write_error lib f c x) as [[?e ?n]|] eqn:?
  | |- context [Repository lib ?d ?c ?x] =>
      destruct (Repository lib d c x) as [[?repo|?e] ?w] eqn:?
  | |- context [repo_push_to_hub lib ?a ?c ?x] =>
      destruct (repo_push_to_hub lib a c x) as [[[]|?e] ?w] eqn:?
  end.

Ltac next_call lib :=
  repeat first [ rewrite bind_assoc | rewrite bind_ret | progress simpl_run ];
  first [ rewrite bind_call | unfold call ];
  split_call lib; simpl_run.

Section Runs.

Context {Model Tokenizer Repo Exn Remote : Type}.

Local Abbreviation World := (World Remote).
Local Abbreviation Event := (Event Model Tokenizer Repo Exn).

Variable lib : Library Model Tokenizer Repo Exn Remote.

Lemma run_notebook_stops path name w :
  Stops path name (outcome (run_notebook lib path name w))
    (trace (run_notebook lib path name w)).
Proof.
  unfold_script.
  repeat next_call lib; try (by econstructor).
Qed.

(** Every log is the record of the calls made to the libraries. *)
Lemma run_notebook_genuine path name w :
  genuine lib w (trace (run_notebook lib path name w))
    (world (run_notebook lib path name w)).
Proof.
  unfold_script. repeat next_call lib.
  all: cbn [genuine made]; unfold os_open, os_write;
    repeat match goal with
           | H : ?l = _ |- context [?l] => rewrite H; simpl_run
           end.
  all: by repeat split.
Qed.

(** *** The two modes of [open] *)

Lemma open_w_truncates path w :
  open_error lib path ModeW w = None ->
  fs (os_open lib path ModeW w).2 !! path = Some "".
Proof. intros Hok. unfold os_open. rewrite Hok. cbn. by rewrite lookup_insert_eq. Qed.

Lemma open_a_keeps path w old :
  open_error lib path ModeA w = None ->
  fs w !! path = Some old ->
  fs (os_open lib path ModeA w).2 !! path = Some old.
Proof.
  intros Hok Hold. unfold os_open. rewrite Hok. cbn.
  by rewrite lookup_insert_eq, Hold.
Qed.

Lemma open_raises_keeps path mode w e :
  open_error lib path mode w = Some e ->
  os_open lib path mode w = (Raised e, w).
Proof. intros Hno. unfold os_open. by rewrite Hno. Qed.

(** *** The file system under the write of the card *)

Lemma card_written (files : gmap string string) k c :
  <[k := default "" (<[k := ""]> files !! k) +:+ c]> (<[k := ""]> files) !! k = Some c.
Proof. by rewrite !lookup_insert_eq. Qed.

Lemma card_written_ne (files : gmap string string) k c p :
  p <> k ->
  <[k := default "" (<[k := ""]> files !! k) +:+ c]> (<[k := ""]> files) !! p = files !! p.
Proof. intros. by rewrite !lookup_insert_ne. Qed.

Lemma cell_write_card_files name w :
  let r := cell_write_card lib name w in
  (forall p, p <> name +:+ "/README.md" -> fs (world r) !! p = fs w !! p) /\
  hub (world r) = hub w /\
  (outcome r = Returned tt ->
   fs (world r) !! (name +:+ "/README.md") = Some model_card_content).
Proof.
  unfold_script. repeat next_call lib; repeat split_and; try done.
  all: try (intros; by rewrite !lookup_insert_ne).
  intros. by apply card_written.
Qed.

(** *** The directory after a run in which no call raised *)

Section Directory.

Context `{!KeepsLocalFiles lib}.

Lemma model_saved m dir w w' f c :
  model_save_pretrained lib m dir w = (Returned tt, w') ->
  model_files lib m !! f = Some c ->
  fs w' !! path_join dir f = Some c.
Proof.
  intros Hcall Hf. pose proof (save_model_writes lib m dir w f c) as H.
  rewrite Hcall in H. by apply H.
Qed.

Lemma tokenizer_saved t dir w w' f c :
  tokenizer_save_pretrained lib t dir w = (Returned tt, w') ->
  tokenizer_files lib t !! f = Some c ->
  fs w' !! path_join dir f = Some c.
Proof.
  intros Hcall Hf. pose proof (save_tokenizer_writes lib t dir w f c) as H.
  rewrite Hcall in H. by apply H.
Qed.

(** The files of the model are not among those of the tokenizer, so saving
    the tokenizer into the same directory keeps them. *)
Lemma tokenizer_saved_keeps_model m t dir w w' f c :
  tokenizer_save_pretrained lib t dir w = (Returned tt, w') ->
  model_files lib m !! f = Some c ->
  fs w !! path_join dir f = Some c ->
  fs w' !! path_join dir f = Some c.
Proof.
  intros Hcall Hf Hw. pose proof (save_tokenizer_keeps lib t dir w (path_join dir f) c) as H.
  rewrite Hcall in H. apply H; [done| |done].
  intros f' [c' Hf'] Heq. apply path_join_inj in Heq as <-.
  pose proof (files_apart lib m t f) as Hapart.
  rewrite Hapart in Hf'; [done|by eexists].
Qed.

Lemma model_pushed_keeps m name w w' :
  model_push_to_hub lib m name w = (Returned tt, w') -> fs w ⊆ fs w'.
Proof.
  intros Hcall. pose proof (push_model_keeps lib m name w) as H.
  rewrite Hcall in H. by apply H.
Qed.

Lemma tokenizer_pushed_keeps t name w w' :
  tokenizer_push_to_hub lib t name w = (Returned tt, w') -> fs w ⊆ fs w'.
Proof.
  intros Hcall. pose proof (push_tokenizer_keeps lib t name w) as H.
  rewrite Hcall in H. by apply H.
Qed.

Lemma Repository_opened_keeps dir from w repo w' :
  Repository lib dir from w = (Returned repo, w') -> fs w ⊆ fs w'.
Proof.
  intros Hcall. pose proof (Repository_keeps lib dir from w repo) as H.
  rewrite Hcall in H. by apply H.
Qed.

Lemma repo_pushed_keeps repo msg w w' :
  repo_push_to_hub lib repo msg w = (Returned tt, w') -> fs w ⊆ fs w'.
Proof.
  intros Hcall. pose proof (push_repo_keeps lib repo msg w) as H.
  rewrite Hcall in H. by apply H.
Qed.

(** A file of an artifact is not the card. *)
Lemma artifact_not_card name f :
  f <> "README.md" -> path_join name f <> name +:+ "/README.md".
Proof. intros Hf Heq. by apply (path_join_inj name f "README.md") in Heq. Qed.

Lemma run_notebook_files path name w :
  let r := run_notebook lib path name w in
  outcome r = Returned tt ->
  exists m t repo,
    trace r = full_trace path name m t repo /\
    (forall f c, model_files lib m !! f = Some c ->
       fs (world r) !! path_join name f = Some c) /\
    (forall f c, tokenizer_files lib t !! f = Some c ->
       fs (world r) !! path_join name f = Some c) /\
    fs (world r) !! (name +:+ "/README.md") = Some model_card_content.
Proof.
  unfold_script. repeat next_call lib; try done. intros _.
  exists m, t, repo. split; [done|].
  match goal with
  | Hrepo : Repository lib _ _ ?W = _, Hpush : repo_push_to_hub lib _ _ _ = (_, ?w') |- _ =>
      assert (forall p c, fs W !! p = Some c -> fs w' !! p = Some c) as Hlate
        by (intros p c Hp;
            eapply lookup_weaken; [|by eapply repo_pushed_keeps];
            eapply lookup_weaken; [|by eapply Repository_opened_keeps]; done)
  end.
  simpl_run.
  repeat split_and.
  - intros f c Hf. apply Hlate.
    rewrite card_written_ne.
    2:{ apply artifact_not_card. intros ->.
        by rewrite (model_files_not_card lib) in Hf. }
    eapply lookup_weaken; [|by eapply tokenizer_pushed_keeps].
    eapply lookup_weaken; [|by eapply model_pushed_keeps].
    eapply tokenizer_saved_keeps_model; [done..|].
    by eapply model_saved.
  - intros f c Hf. apply Hlate.
    rewrite card_written_ne.
    2:{ apply artifact_not_card. intros ->.
        by rewrite (tokenizer_files_not_card lib) in Hf. }
    eapply lookup_weaken; [|by eapply tokenizer_pushed_keeps].
    eapply lookup_weaken; [|by eapply model_pushed_keeps].
    by eapply tokenizer_saved.
  - apply Hlate, card_written.
Qed.

End Directory.

(** ** The notebook against its specification *)

(** C1, as amended.  The notebook as it is, with the checkpoint
    [./results/checkpoint-2000] and the name [desired-model-name], in a run in
    which no call raises.  The log is that of the eleven calls, each made to
    the library in the world the call before it left, and the world of the
    run is the one the last of them left.  The directory [desired-model-name]
    holds every file of the saved model, every file of the saved tokenizer
    and [desired-model-name/README.md] with the card; and the uploads are
    exactly three, all of which returned: of the model and of the tokenizer
    under that name, and of the working copy opened over that name. *)
Theorem notebook_end_to_end (HL : KeepsLocalFiles lib) w :
  outcome (notebook lib w) = Returned tt ->
  exists m t repo,
    trace (notebook lib w) =
      full_trace "./results/checkpoint-2000" "desired-model-name" m t repo /\
    genuine lib w (trace (notebook lib w)) (world (notebook lib w)) /\
    (forall f c, model_files lib m !! f = Some c ->
       fs (world (notebook lib w)) !! path_join "desired-model-name" f = Some c) /\
    (forall f c, tokenizer_files lib t !! f = Some c ->
       fs (world (notebook lib w)) !! path_join "desired-model-name" f = Some c) /\
    fs (world (notebook lib w)) !! "desired-model-name/README.md"
      = Some model_card_content /\
    List.filter is_upload (trace (notebook lib w)) =
      [ E_model_push_to_hub m "desired-model-name" (Returned tt);
        E_tokenizer_push_to_hub t "desired-model-name" (Returned tt);
        E_repo_push_to_hub repo "Add model card" (Returned tt) ] /\
    E_Repository "desired-model-name" "desired-model-name" (Returned repo)
      ∈ trace (notebook lib w).
Proof.
  intros Hdone.
  destruct (run_notebook_files checkpoint_path model_name_on_hub w Hdone)
    as (m & t & repo & Htr & Hm & Ht & Hcard).
  pose proof (run_notebook_genuine checkpoint_path model_name_on_hub w) as Hgen.
  exists m, t, repo. unfold notebook. split; [done|]. split; [done|].
  rewrite Htr. repeat split_and; try done.
  unfold_logs. set_solver.
Qed.

(** C2, as amended.  The card is the only file the notebook opens and
    writes: at [<model_name_on_hub>/README.md], in mode ["w"], with the
    template as content; the write is made in every run in which no call
    raises, and leaves the template as the content of that file.  The section
    titles of the template are Model Description, Intended Use, Limitations,
    Hardware (followed by a blank), Software Optimizations, Ethical
    Considerations and More Information. *)
Theorem model_card_written path name w :
  let r := run_notebook lib path name w in
  (forall p mode res, E_open p mode res ∈ trace r ->
     p = name +:+ "/README.md" /\ mode = ModeW) /\
  (forall f c res, E_write f c res ∈ trace r ->
     file_name f = name +:+ "/README.md" /\ c = model_card_content) /\
  (outcome r = Returned tt ->
     E_write (card_file name) model_card_content (Returned tt) ∈ trace r) /\
  (outcome (cell_write_card lib name w) = Returned tt ->
     fs (world (cell_write_card lib name w)) !! (name +:+ "/README.md")
       = Some model_card_content) /\
  section_headers model_card_content =
    [ "Model Description"; "Intended Use"; "Limitations"; "Hardware ";
      "Software Optimizations"; "Ethical Considerations"; "More Information" ].
Proof.
  intros r. pose proof (run_notebook_stops path name w) as Hshape. fold r in Hshape.
  repeat split_and.
  - by apply (stops_writes _ _ _ _ Hshape).
  - intros f c res Hin.
    by destruct (proj2 (stops_writes _ _ _ _ Hshape) f c res Hin) as [-> ->].
  - intros Hdone.
    destruct (stops_returned _ _ _ _ Hshape Hdone) as (m & t & repo & Htr).
    rewrite Htr. unfold_logs. set_solver.
  - apply cell_write_card_files.
  - by vm_compute.
Qed.

(** C3, as amended.  In a run in which no call raises the uploads are exactly
    three: the model, the tokenizer and the working copy with the card, in
    that order.  In every run the uploads made are the first ones of these
    three, each made once; and an upload is made only after the save of what
    it uploads has returned: [save_pretrained] of the model, [save_pretrained]
    of the tokenizer, the write of README.md.  The log these are read from is
    the record of the calls made to the library. *)
Theorem uploads_follow_saves path name w :
  let r := run_notebook lib path name w in
  (outcome r = Returned tt ->
   exists m t repo,
     List.filter is_upload (trace r) =
       [ E_model_push_to_hub m name (Returned tt);
         E_tokenizer_push_to_hub t name (Returned tt);
         E_repo_push_to_hub repo "Add model card" (Returned tt) ]) /\
  (step_of <$> List.filter is_upload (trace r)) `prefix_of` [5; 6; 10] /\
  (forall i m d res, trace r !! i = Some (E_model_push_to_hub m d res) ->
     trace r !! 3 = Some (E_model_save_pretrained m d (Returned tt)) /\ 3 < i) /\
  (forall i t d res, trace r !! i = Some (E_tokenizer_push_to_hub t d res) ->
     trace r !! 4 = Some (E_tokenizer_save_pretrained t d (Returned tt)) /\ 4 < i) /\
  (forall i repo msg res, trace r !! i = Some (E_repo_push_to_hub repo msg res) ->
     trace r !! 8 = Some (E_write (card_file name) model_card_content (Returned tt))
     /\ 8 < i) /\
  genuine lib w (trace r) (world r).
Proof.
  intros r. pose proof (run_notebook_stops path name w) as Hshape. fold r in Hshape.
  repeat split_and.
  - intros Hdone. destruct (stops_returned _ _ _ _ Hshape Hdone) as (m & t & repo & ->).
    by exists m, t, repo.
  - by eapply stops_uploads.
  - intros i. by apply (stops_upload_after_save _ _ _ _ i Hshape).
  - intros i. by apply (stops_upload_after_save _ _ _ _ i Hshape).
  - intros i. by apply (stops_upload_after_save _ _ _ _ i Hshape).
  - apply run_notebook_genuine.
Qed.

(** C4.  When the library raises on a checkpoint that is missing, and the
    checkpoint path does not exist when the model is to be loaded, the run
    ends with an exception; if the login returned, the call that raised is
    the load of the model.  No save, no write and no upload is in the log,
    and so is no call on the tokenizer. *)
Theorem missing_checkpoint_stops_before_saving path name w :
  raises_on_missing_checkpoint lib ->
  path_exists path (fs (notebook_login lib w).2) = false ->
  let r := run_notebook lib path name w in
  (exists e, outcome r = Raised e) /\
  ((notebook_login lib w).1 = Returned tt ->
   exists e, outcome r = Raised e /\
     trace r = [ E_notebook_login (Returned tt);
                 E_model_from_pretrained path (Raised e) ]) /\
  List.filter is_save (trace r) = [] /\
  List.filter is_upload (trace r) = [] /\
  (forall ev, ev ∈ trace r -> step_of ev <= 1).
Proof.
  intros Hlib Hmissing r. subst r. unfold_script.
  next_call lib.
  - pose proof (Hlib path w0 Hmissing) as [e He].
    next_call lib; [done|].
    repeat split_and; eauto.
    intros ev Hin. at_member Hin; cbn; lia.
  - repeat split_and; eauto; [done|].
    intros ev Hin. at_member Hin; cbn; lia.
Qed.

(** C5.  Whatever the checkpoint path, the tokenizer is loaded from
    [distilbert-base-uncased] and the model from the checkpoint path, and the
    saves and the uploads of both are under the chosen name.  Each of these
    calls is made as soon as the one before it has returned: the model is
    loaded after the login, the tokenizer after the model, both are then
    saved, and then uploaded.  The log is the record of calls made to the
    library, each in the world the call before it left. *)
Theorem tokenizer_from_base_identifier path name w :
  let r := run_notebook lib path name w in
  (forall id res, E_tokenizer_from_pretrained id res ∈ trace r ->
     id = "distilbert-base-uncased") /\
  (forall p res, E_model_from_pretrained p res ∈ trace r -> p = path) /\
  (forall m d res, E_model_save_pretrained m d res ∈ trace r -> d = name) /\
  (forall t d res, E_tokenizer_save_pretrained t d res ∈ trace r -> d = name) /\
  (forall m d res, E_model_push_to_hub m d res ∈ trace r -> d = name) /\
  (forall t d res, E_tokenizer_push_to_hub t d res ∈ trace r -> d = name) /\
  genuine lib w (trace r) (world r) /\
  ((notebook_login lib w).1 = Returned tt ->
     exists res, E_model_from_pretrained path res ∈ trace r) /\
  (forall m, E_model_from_pretrained path (Returned m) ∈ trace r ->
     exists res, E_tokenizer_from_pretrained "distilbert-base-uncased" res ∈ trace r) /\
  (forall t, E_tokenizer_from_pretrained "distilbert-base-uncased" (Returned t) ∈ trace r ->
     exists m res,
       E_model_from_pretrained path (Returned m) ∈ trace r /\
       E_model_save_pretrained m name res ∈ trace r) /\
  (forall m, E_model_save_pretrained m name (Returned tt) ∈ trace r ->
     exists t res,
       E_tokenizer_from_pretrained "distilbert-base-uncased" (Returned t) ∈ trace r /\
       E_tokenizer_save_pretrained t name res ∈ trace r) /\
  (forall t, E_tokenizer_save_pretrained t name (Returned tt) ∈ trace r ->
     exists m res,
       E_model_save_pretrained m name (Returned tt) ∈ trace r /\
       E_model_push_to_hub m name res ∈ trace r) /\
  (forall m, E_model_push_to_hub m name (Returned tt) ∈ trace r ->
     exists t res,
       E_tokenizer_save_pretrained t name (Returned tt) ∈ trace r /\
       E_tokenizer_push_to_hub t name res ∈ trace r).
Proof.
  intros r. pose proof (run_notebook_stops path name w) as Hshape. fold r in Hshape.
  destruct (stops_arguments _ _ _ _ Hshape) as (Hm & Ht & Hms & Hts & Hmp & Htp).
  destruct (stops_progress _ _ _ _ Hshape) as (_ & Hnext).
  pose proof (run_notebook_genuine path name w) as Hgen. fold r in Hgen.
  repeat split_and; try done; try apply Hnext.
  clear. subst r. unfold_script.
  next_call lib; intros Hret; [|done].
  next_call lib; eexists; apply list_elem_of_further, list_elem_of_here.
Qed.

(** C6.  The only calls that are handed a model are [save_pretrained] and
    [push_to_hub], and the model they are handed is the one the load
    returned, which is the second call of the run and comes before them. *)
Theorem model_passed_unchanged path name w :
  let r := run_notebook lib path name w in
  (forall i ev m, trace r !! i = Some ev -> model_given ev = Some m ->
     trace r !! 1 = Some (E_model_from_pretrained path (Returned m)) /\ 1 < i) /\
  (forall p1 p2 res1 res2,
     E_model_from_pretrained p1 res1 ∈ trace r ->
     E_model_from_pretrained p2 res2 ∈ trace r -> res1 = res2).
Proof.
  intros r. pose proof (run_notebook_stops path name w) as Hshape. fold r in Hshape.
  split.
  - intros i ev m. by eapply stops_model_from_load.
  - intros p1 p2 res1 res2 H1 H2.
    by destruct (stops_one_load _ _ _ _ _ _ _ _ Hshape H1 H2).
Qed.


(** C8.  The calls of a run are the first calls of the notebook, each made
    once and in order.  A call that raised is the last call of the run and
    its exception is the outcome of the run; and a run that ends with an
    exception ends with the exception of its last call. *)
Theorem failures_propagate path name w :
  let r := run_notebook lib path name w in
  step_of <$> trace r = seq 0 (length (trace r)) /\
  (forall i ev e, trace r !! i = Some ev -> raised_by ev = Some e ->
     S i = length (trace r) /\ outcome r = Raised e) /\
  (forall e, outcome r = Raised e ->
     exists ev, last (trace r) = Some ev /\ raised_by ev = Some e).
Proof.
  intros r. pose proof (run_notebook_stops path name w) as Hshape. fold r in Hshape.
  repeat split_and.
  - by eapply stops_steps.
  - intros i ev e. by eapply stops_raised_last.
  - intros e. by eapply stops_raised_by_call.
Qed.

(** C9.  The cell that writes the card opens [<model_name_on_hub>/README.md]
    in mode ["w"]; when it returns, the content of that file is the template,
    whatever the file held before; and, however the cell ends, every other
    file and all that is not the local file system are as they were. *)
Theorem card_write_replaces_readme name w :
  let r := cell_write_card lib name w in
  (exists res rest, trace r = E_open (name +:+ "/README.md") ModeW res :: rest) /\
  (outcome r = Returned tt ->
   fs (world r) !! (name +:+ "/README.md") = Some model_card_content) /\
  (forall p, p <> name +:+ "/README.md" -> fs (world r) !! p = fs w !! p) /\
  hub (world r) = hub w.
Proof.
  intros r. destruct (cell_write_card_files name w) as (Hframe & Hhub & Hcard).
  repeat split_and; try done.
  subst r. unfold_script. repeat next_call lib; eauto.
Qed.

End Runs.

(** C10.  The text written to README.md is the same in any two runs: for
    any two libraries, checkpoint paths, names and starting worlds, the
    contents handed to [write] are equal, and so are the contents README.md
    is left with by the cell that writes it and, when the libraries keep the
    local files, by the whole run. *)
Theorem card_content_is_constant
    {Model1 Tokenizer1 Repo1 Exn1 Remote1 Model2 Tokenizer2 Repo2 Exn2 Remote2 : Type}
    (lib1 : Library Model1 Tokenizer1 Repo1 Exn1 Remote1)
    (lib2 : Library Model2 Tokenizer2 Repo2 Exn2 Remote2)
    path1 path2 name1 name2 w1 w2 :
  let r1 := run_notebook lib1 path1 name1 w1 in
  let r2 := run_notebook lib2 path2 name2 w2 in
  let c1 := cell_write_card lib1 name1 w1 in
  let c2 := cell_write_card lib2 name2 w2 in
  (forall f1 s1 res1 f2 s2 res2,
     E_write f1 s1 res1 ∈ trace r1 -> E_write f2 s2 res2 ∈ trace r2 -> s1 = s2) /\
  (outcome c1 = Returned tt -> outcome c2 = Returned tt ->
   fs (world c1) !! (name1 +:+ "/README.md") = fs (world c2) !! (name2 +:+ "/README.md")) /\
  (KeepsLocalFiles lib1 -> KeepsLocalFiles lib2 ->
   outcome r1 = Returned tt -> outcome r2 = Returned tt ->
   fs (world r1) !! (name1 +:+ "/README.md") = fs (world r2) !! (name2 +:+ "/README.md")).
Proof.
  intros r1 r2 c1 c2. subst r1 r2 c1 c2. repeat split_and.
  - intros f1 s1 res1 f2 s2 res2 H1 H2.
    apply (stops_writes _ _ _ _ (run_notebook_stops lib1 path1 name1 w1)) in H1 as [_ ->].
    by apply (stops_writes _ _ _ _ (run_notebook_stops lib2 path2 name2 w2)) in H2 as [_ ->].
  - intros H1 H2.
    rewrite (proj2 (proj2 (cell_write_card_files lib1 name1 w1)) H1).
    by rewrite (proj2 (proj2 (cell_write_card_files lib2 name2 w2)) H2).
  - intros HL1 HL2 H1 H2.
    destruct (run_notebook_files lib1 path1 name1 w1 H1) as (? & ? & ? & _ & _ & _ & ->).
    by destruct (run_notebook_files lib2 path2 name2 w2 H2) as (? & ? & ? & _ & _ & _ & ->).
Qed.

(** ** The stub library does what the script relies on *)

Lemma stub_raises_on_missing_checkpoint : raises_on_missing_checkpoint Stub.library.
Proof.
  intros path w Hmissing. cbn. unfold Stub.from_pretrained.
  rewrite Hmissing. by eexists.
Qed.

Lemma stub_names_apart dir f1 f2 : f1 <> f2 -> path_join dir f1 <> path_join dir f2.
Proof. intros Hne Heq. by apply path_join_inj in Heq. Qed.

Lemma stub_keeps_local_files : KeepsLocalFiles Stub.library.
Proof.
  split; cbn.
  - intros m dir w f c _ Hf.
    apply lookup_insert_Some in Hf as [[<- <-]|[_ Hf]].
    + rewrite lookup_insert_ne by (by apply stub_names_apart).
      by rewrite lookup_insert_eq.
    + apply lookup_singleton_Some in Hf as [<- <-].
      by rewrite lookup_insert_eq.
  - intros t dir w f c _ Hf.
    apply lookup_insert_Some in Hf as [[<- <-]|[_ Hf]].
    + rewrite lookup_insert_ne by (by apply stub_names_apart).
      by rewrite lookup_insert_eq.
    + apply lookup_singleton_Some in Hf as [<- <-].
      by rewrite lookup_insert_eq.
  - intros t dir w p c _ Hother Hp.
    rewrite !lookup_insert_ne; [done| |].
    + intros <-. by eapply (Hother "tokenizer.json").
    + intros <-. by eapply (Hother "vocab.txt").
  - done.
  - done.
  - done.
  - done.
  - intros m t f [c Hf].
    apply lookup_insert_Some in Hf as [[<- <-]|[_ Hf]]; [done|].
    by apply lookup_singleton_Some in Hf as [<- <-].
  - done.
  - done.
Qed.

(** ** The notebook run against the stub *)

(** On the machine with nothing on disk, the notebook as it is makes no
    directory, no card and no upload: the load of the checkpoint raises. *)
Lemma nothing_produced_without_checkpoint :
  outcome (notebook Stub.library Stub.blank) = Raised "OSError" /\
  fs (world (notebook Stub.library Stub.blank)) !! "desired-model-name/README.md" = None /\
  fs (world (notebook Stub.library Stub.blank)) = ∅ /\
  List.filter is_upload (trace (notebook Stub.library Stub.blank)) = [].
Proof. by vm_compute. Qed.

(** On the machine with the checkpoint the run goes through: three uploads
    made to the library, the weights and the card in the directory. *)
Lemma notebook_end_to_end_witness :
  outcome (notebook Stub.library Stub.trained) = Returned tt /\
  length (List.filter is_upload (trace (notebook Stub.library Stub.trained))) = 3 /\
  genuine Stub.library Stub.trained
    (trace (notebook Stub.library Stub.trained))
    (world (notebook Stub.library Stub.trained)) /\
  fs (world (notebook Stub.library Stub.trained)) !! "desired-model-name/README.md"
    = Some model_card_content.
Proof.
  split; [reflexivity|].
  destruct (notebook_end_to_end Stub.library stub_keeps_local_files Stub.trained)
    as (m & t & repo & _ & Hgen & _ & _ & Hcard & Hup & _); [reflexivity|].
  split; [by rewrite Hup | by split].
Defined.

(** The card that the run leaves in the directory does not have the section
    titles as they are listed: its first one is Model Description, and
    Hardware is followed by a blank. *)
Lemma card_headers_not_as_listed :
  exists c,
    fs (world (notebook Stub.library Stub.trained)) !! "desired-model-name/README.md"
      = Some c /\
    section_headers c <> listed_section_headers.
Proof.
  exists model_card_content. split; [by vm_compute|].
  vm_compute. discriminate.
Qed.

Lemma model_card_written_witness :
  outcome (notebook Stub.library Stub.trained) = Returned tt /\
  E_write (card_file "desired-model-name") model_card_content (Returned tt)
    ∈ trace (notebook Stub.library Stub.trained).
Proof.
  split; [reflexivity|].
  apply (model_card_written Stub.library checkpoint_path model_name_on_hub Stub.trained).
  reflexivity.
Defined.

(** On the machine with nothing on disk the load raises and the run makes no
    upload at all. *)
Lemma no_upload_without_checkpoint :
  ~ uploads_once_each (trace (notebook Stub.library Stub.blank)).
Proof.
  intros (m & t & repo & name1 & name2 & msg & r1 & r2 & r3 & H).
  vm_compute in H. discriminate.
Qed.

Lemma uploads_follow_saves_witness :
  outcome (notebook Stub.library Stub.trained) = Returned tt /\
  length (List.filter is_upload (trace (notebook Stub.library Stub.trained))) = 3.
Proof.
  split; [reflexivity|].
  destruct (uploads_follow_saves Stub.library checkpoint_path model_name_on_hub Stub.trained)
    as [Hdone _].
  destruct Hdone as (m & t & repo & Hup); [reflexivity|].
  unfold notebook. by rewrite Hup.
Defined.

Lemma missing_checkpoint_stops_before_saving_witness :
  path_exists checkpoint_path (fs (notebook_login Stub.library Stub.blank).2) = false /\
  (exists e, outcome (notebook Stub.library Stub.blank) = Raised e) /\
  List.filter is_save (trace (notebook Stub.library Stub.blank)) = [] /\
  List.filter is_upload (trace (notebook Stub.library Stub.blank)) = [].
Proof.
  split; [reflexivity|].
  destruct (missing_checkpoint_stops_before_saving Stub.library
              checkpoint_path model_name_on_hub Stub.blank
              stub_raises_on_missing_checkpoint eq_refl)
    as (Hraised & _ & Hsave & Hup & _).
  by repeat split.
Defined.

Lemma tokenizer_from_base_identifier_witness :
  exists t res,
    E_tokenizer_save_pretrained t "desired-model-name" (Returned tt)
      ∈ trace (notebook Stub.library Stub.trained) /\
    E_tokenizer_push_to_hub t "desired-model-name" res
      ∈ trace (notebook Stub.library Stub.trained).
Proof.
  destruct (tokenizer_from_base_identifier Stub.library
              checkpoint_path model_name_on_hub Stub.trained)
    as (_ & _ & _ & _ & _ & _ & _ & _ & _ & _ & _ & _ & Hpush).
  apply (Hpush "model of ./results/checkpoint-2000").
  apply (list_elem_of_lookup_2 _ 5). reflexivity.
Defined.

Lemma model_passed_unchanged_witness :
  trace (notebook Stub.library Stub.trained) !! 1 =
    Some (E_model_from_pretrained checkpoint_path
            (Returned "model of ./results/checkpoint-2000")) /\
  1 < 5.
Proof.
  apply (proj1 (model_passed_unchanged Stub.library
                  checkpoint_path model_name_on_hub Stub.trained)
           5 (E_model_push_to_hub "model of ./results/checkpoint-2000"
                "desired-model-name" (Returned tt))).
  - reflexivity.
  - reflexivity.
Defined.


Lemma failures_propagate_witness :
  2 = length (trace (notebook Stub.library Stub.blank)) /\
  outcome (notebook Stub.library Stub.blank) = Raised "OSError".
Proof.
  apply (proj1 (proj2 (failures_propagate Stub.library
                         checkpoint_path model_name_on_hub Stub.blank))
           1 (E_model_from_pretrained checkpoint_path (Raised "OSError"))).
  - reflexivity.
  - reflexivity.
Defined.

Lemma card_write_replaces_readme_witness :
  fs Stub.trained !! "desired-model-name/README.md" = Some "an older card" /\
  fs (world (cell_write_card Stub.library "desired-model-name" Stub.trained))
    !! "desired-model-name/README.md" = Some model_card_content /\
  fs (world (cell_write_card Stub.library "desired-model-name" Stub.trained))
    !! "./results/checkpoint-2000/model.safetensors" = Some "weights".
Proof.
  split; [reflexivity|].
  destruct (card_write_replaces_readme Stub.library "desired-model-name" Stub.trained)
    as (_ & Hcard & Hframe & _).
  split.
  - apply Hcard. reflexivity.
  - rewrite Hframe; [reflexivity | discriminate].
Defined.

Lemma card_content_is_constant_witness :
  fs (world (cell_write_card Stub.library "desired-model-name" Stub.trained))
    !! "desired-model-name/README.md" =
  fs (world (cell_write_card Stub.library "another-name" Stub.blank))
    !! "another-name/README.md".
Proof.
  apply (card_content_is_constant Stub.library Stub.library
           checkpoint_path "./elsewhere" "desired-model-name" "another-name"
           Stub.trained Stub.blank).
  - reflexivity.
  - reflexivity.
Defined.

(** * More on the notebook *)

Section Beyond.

Context {Model Tokenizer Repo Exn Remote : Type}.

Local Abbreviation World := (World Remote).
Local Abbreviation Event := (Event Model Tokenizer Repo Exn).

Variable lib : Library Model Tokenizer Repo Exn Remote.

(** X1.  The login comes first.  When [notebook_login] raises, it is the only
    call of the run, its exception is the outcome and the world is as the
    login left it; and any later call in a log comes after a login that
    returned. *)
Theorem login_comes_first path name w :
  let r := run_notebook lib path name w in
  (forall e, (notebook_login lib w).1 = Raised e ->
     outcome r = Raised e /\ trace r = [E_notebook_login (Raised e)] /\
     world r = (notebook_login lib w).2) /\
  (forall i ev, trace r !! i = Some ev -> 0 < i ->
     trace r !! 0 = Some (E_notebook_login (Returned tt))).
Proof.
  intros r. split.
  - subst r. intros e He. unfold_script. next_call lib; [done|].
    by simplify_eq.
  - pose proof (run_notebook_stops lib path name w) as Hshape. fold r in Hshape.
    intros i ev Hi Hpos. by_shape Hshape; destruct i; (lia || done).
Qed.

(** X2.  Nothing is uploaded before both artifacts are saved: an upload in a
    log comes after [save_pretrained] of the model and [save_pretrained] of
    the tokenizer, under the same name, have both returned. *)
Theorem uploads_after_both_saves path name w i ev :
  let r := run_notebook lib path name w in
  trace r !! i = Some ev -> is_upload ev = true ->
  exists m t,
    trace r !! 3 = Some (E_model_save_pretrained m name (Returned tt)) /\
    trace r !! 4 = Some (E_tokenizer_save_pretrained t name (Returned tt)) /\
    4 < i.
Proof.
  intros r Hi Hup.
  pose proof (run_notebook_stops lib path name w) as Hshape. fold r in Hshape.
  by_shape Hshape; at_index i; cbn in Hup; try done; eexists _, _;
    (split; [reflexivity|split; [reflexivity|lia]]).
Qed.

(** X3.  The working copy is opened over a directory that already holds the
    card: whenever [Repository] is called, it is called in a world in which
    [<model_name_on_hub>/README.md] is the template. *)
Theorem Repository_opened_over_the_card path name w res :
  E_Repository name name res ∈ trace (run_notebook lib path name w) ->
  exists w',
    (Repository lib name name w').1 = res /\
    fs w' !! (name +:+ "/README.md") = Some model_card_content.
Proof.
  unfold_script. repeat next_call lib; intros Hin; at_member Hin.
  all: match goal with
       | Hcall : Repository lib _ _ ?W = _ |- _ =>
           exists W; rewrite Hcall; split; [done | apply card_written]
       end.
Qed.



(** X5.  A card that cannot be written.  When [open] raises, the write is not
    tried and the world is as it was.  When [open] returns and the write
    fails after [n] characters have reached the file, the run of the cell
    ends with that exception and README.md holds the first [n] characters of
    the card in place of what it held before; every other file is as it
    was. *)
Theorem failed_card_write name w e n :
  let r := cell_write_card lib name w in
  (open_error lib (name +:+ "/README.md") ModeW w = Some e ->
   outcome r = Raised e /\ world r = w /\
   trace r = [E_open (name +:+ "/README.md") ModeW (Raised e)]) /\
  (open_error lib (name +:+ "/README.md") ModeW w = None ->
   write_error lib (card_file name) model_card_content
     (os_open lib (name +:+ "/README.md") ModeW w).2 = Some (e, n) ->
   outcome r = Raised e /\
   fs (world r) !! (name +:+ "/README.md")
     = Some (String.substring 0 n model_card_content) /\
   (forall p, p <> name +:+ "/README.md" -> fs (world r) !! p = fs w !! p)).
Proof.
  intros r. subst r. split.
  - intros Hopen. unfold_script. next_call lib; simplify_eq. by repeat split_and.
  - intros Hopen Hwrite. unfold os_open, card_file in Hwrite.
    rewrite Hopen in Hwrite. simpl_run.
    unfold_script. next_call lib; simplify_eq. next_call lib; simplify_eq.
    repeat split_and; [done| |].
    + by rewrite !lookup_insert_eq.
    + intros p Hp. by rewrite !lookup_insert_ne.
Qed.

(** X6.  The only file the notebook itself writes is the card: a file that
    the calls of the libraries leave alone, and that is not
    [<model_name_on_hub>/README.md], is after the run as it was before it,
    however the run ends. *)
Theorem notebook_writes_only_the_card path name w p :
  Untouched lib name p ->
  p <> name +:+ "/README.md" ->
  fs (world (run_notebook lib path name w)) !! p = fs w !! p.
Proof.
  intros HU Hp. unfold_script. repeat next_call lib.
  all: repeat match goal with
       | H : notebook_login lib ?x = _ |- _ =>
           pose proof (login_leaves lib x) as ?; rewrite H in *; clear H
       | H : AutoModelForSequenceClassification_from_pretrained lib ?a ?x = _ |- _ =>
           pose proof (model_load_leaves lib a x) as ?; rewrite H in *; clear H
       | H : AutoTokenizer_from_pretrained lib ?a ?x = _ |- _ =>
           pose proof (tokenizer_load_leaves lib a x) as ?; rewrite H in *; clear H
       | H : model_save_pretrained lib ?a _ ?x = _ |- _ =>
           pose proof (model_save_leaves lib a x) as ?; rewrite H in *; clear H
       | H : tokenizer_save_pretrained lib ?a _ ?x = _ |- _ =>
           pose proof (tokenizer_save_leaves lib a x) as ?; rewrite H in *; clear H
       | H : model_push_to_hub lib ?a _ ?x = _ |- _ =>
           pose proof (model_push_leaves lib a x) as ?; rewrite H in *; clear H
       | H : tokenizer_push_to_hub lib ?a _ ?x = _ |- _ =>
           pose proof (tokenizer_push_leaves lib a x) as ?; rewrite H in *; clear H
       | H : Repository lib _ _ ?x = _ |- _ =>
           pose proof (Repository_leaves lib x) as ?; rewrite H in *; clear H
       | H : repo_push_to_hub lib ?a ?b ?x = _ |- _ =>
           pose proof (repo_push_leaves lib a b x) as ?; rewrite H in *; clear H
       end.
  all: simpl_run; rewrite ?lookup_insert_ne in * by done; congruence.
Qed.

End Beyond.

(** ** More runs against the stub *)

Lemma login_comes_first_witness :
  outcome (notebook Faulty.logged_out Stub.trained) = Raised "LoginError" /\
  trace (notebook Faulty.logged_out Stub.trained)
    = [E_notebook_login (Raised "LoginError")] /\
  world (notebook Faulty.logged_out Stub.trained) = Stub.trained.
Proof.
  apply (proj1 (login_comes_first Faulty.logged_out
                  checkpoint_path model_name_on_hub Stub.trained)).
  reflexivity.
Defined.

Lemma uploads_after_both_saves_witness :
  exists m t,
    trace (notebook Stub.library Stub.trained) !! 3
      = Some (E_model_save_pretrained m "desired-model-name" (Returned tt)) /\
    trace (notebook Stub.library Stub.trained) !! 4
      = Some (E_tokenizer_save_pretrained t "desired-model-name" (Returned tt)) /\
    4 < 6.
Proof.
  apply (uploads_after_both_saves Stub.library
           checkpoint_path model_name_on_hub Stub.trained 6
           (E_tokenizer_push_to_hub "tokenizer of distilbert-base-uncased"
              "desired-model-name" (Returned tt))).
  - reflexivity.
  - reflexivity.
Defined.

Lemma Repository_opened_over_the_card_witness :
  exists w',
    (Repository Stub.library "desired-model-name" "desired-model-name" w').1
      = Returned "desired-model-name" /\
    fs w' !! "desired-model-name/README.md" = Some model_card_content.
Proof.
  apply (Repository_opened_over_the_card Stub.library
           checkpoint_path model_name_on_hub Stub.trained).
  apply (list_elem_of_lookup_2 _ 9). reflexivity.
Defined.


(** With room for a hundred characters only, the older card is replaced by
    the first hundred characters of the new one. *)
Lemma failed_card_write_witness :
  fs Stub.trained !! "desired-model-name/README.md" = Some "an older card" /\
  outcome (cell_write_card Faulty.disk_full "desired-model-name" Stub.trained)
    = Raised "OSError" /\
  fs (world (cell_write_card Faulty.disk_full "desired-model-name" Stub.trained))
    !! "desired-model-name/README.md"
    = Some (String.substring 0 100 model_card_content) /\
  world (cell_write_card Faulty.read_only "desired-model-name" Stub.trained)
    = Stub.trained.
Proof.
  split; [reflexivity|].
  destruct (failed_card_write Faulty.disk_full "desired-model-name" Stub.trained
              "OSError" 100) as [_ Hwrite].
  destruct Hwrite as (Hout & Hcard & _); [reflexivity | reflexivity |].
  destruct (failed_card_write Faulty.read_only "desired-model-name" Stub.trained
              "PermissionError" 0) as [Hopen _].
  destruct Hopen as (_ & Hworld & _); [reflexivity|].
  by repeat split.
Defined.

(** The stub writes its files under the name of the model, so the checkpoint
    is a file it leaves alone. *)
Lemma stub_leaves_the_checkpoint :
  Untouched Stub.library "desired-model-name"
    "./results/checkpoint-2000/model.safetensors".
Proof.
  split; cbn; try done.
  - intros path w. unfold Stub.from_pretrained. by destruct (path_exists _ _).
  - intros m w. by rewrite !lookup_insert_ne by (by vm_compute).
  - intros t w. by rewrite !lookup_insert_ne by (by vm_compute).
Qed.

Lemma notebook_writes_only_the_card_witness :
  fs (world (notebook Stub.library Stub.trained))
    !! "./results/checkpoint-2000/model.safetensors" = Some "weights".
Proof.
  unfold notebook.
  rewrite (notebook_writes_only_the_card Stub.library
             checkpoint_path model_name_on_hub Stub.trained
             "./results/checkpoint-2000/model.safetensors"
             stub_leaves_the_checkpoint).
  - reflexivity.
  - discriminate.
Defined.
